(** * my_lambda_function/index.py: the [handler] of the todo counter

    A shallow embedding of the module

<<
    URI = os.getenv('URI', 'https://jsonplaceholder.typicode.com/todos')

    def handler(event, context):
        resp = requests.get(URI).json()
        frame = pandas.DataFrame(resp)
        counts = frame.groupby('completed')['id'].count()
        return {'CompletedCount': counts.to_dict()}
>>

    Python dictionaries are finite maps ([gmap]); an exception is the
    [Raise] branch of [result]; the network is a function from the URL to
    what [requests.get] does there, and an invocation reports the URLs it
    fetched next to what it returned. *)

From Stdlib Require Import ZArith String List.
From stdpp Require Import base option gmap strings list fin_maps.

Local Open Scope Z_scope.
Local Open Scope string_scope.

(** ** Python values and exceptions *)

(** What [json()] hands back: [None], [bool], [int], [str], [list] and
    [dict], and the float [nan] that the decoder yields for the literal
    NaN.  Numbers are the integers, of any size; the other floats are left
    out.  A [dict] is the list of its items in insertion order. *)
#[warnings="-register-all"]
Inductive value : Type :=
  | VNone
  | VBool (b : bool)
  | VInt (z : Z)
  | VNaN
  | VStr (s : string)
  | VList (items : list value)
  | VDict (items : list (string * value)).

(** The exceptions that leave [handler]. *)
Inductive exn : Type :=
  | ConnectionError
  | JSONDecodeError
  | KeyError (key : string)
  | TypeError (msg : string)
  | ValueError (msg : string).

Inductive result (A : Type) : Type :=
  | Ok (a : A)
  | Raise (e : exn).

Arguments Ok {A} a.
Arguments Raise {A} e.

(** An exception raised on the way ends the computation: nothing in the
    module catches one. *)
#[global] Instance result_bind : MBind result :=
  fun A B k r =>
    match r with
    | Ok a => k a
    | Raise e => Raise e
    end.


(** [d.get(k)]: the item stored under [k], the only one in a Python dict. *)
Fixpoint dict_get (d : list (string * value)) (k : string) : option value :=
  match d with
  | [] => None
  | (k', v) :: d' => if String.eqb k k' then Some v else dict_get d' k
  end.

(** ** Dictionary keys

    A hashable value as a dictionary key.  Python has [True == 1] and
    [hash(True) == hash(1)], so a [bool] and the [int] it equals are one
    key; a [list] or a [dict] is not hashable. *)
Inductive key : Type :=
  | KNum (z : Z)
  | KStr (s : string).

Definition KTrue : key := KNum 1.
Definition KFalse : key := KNum 0.

#[global] Instance key_eq_dec : EqDecision key.
Proof. solve_decision. Defined.

Definition key_to_sum (k : key) : Z + string :=
  match k with KNum z => inl z | KStr s => inr s end.

Definition key_of_sum (x : Z + string) : key :=
  match x with inl z => KNum z | inr s => KStr s end.

#[global] Instance key_countable : Countable key.
Proof.
  apply (inj_countable' key_to_sum key_of_sum).
  intros k. destruct k; reflexivity.
Defined.

(** ** Frames

    A cell of a frame holds a value or is missing (NaN).  pandas' [isna]
    holds of a missing cell and of a cell holding [None] or [nan]. *)
Inductive cell : Type :=
  | NaN
  | Obj (v : value).

Definition notna (c : cell) : bool :=
  match c with
  | NaN | Obj VNone | Obj VNaN => false
  | Obj _ => true
  end.

(** A frame is its columns, each a label with one cell per row. *)
Definition DataFrame : Type := list (string * list cell).

Definition column (frame : DataFrame) (label : string) : option (list cell) :=
  snd <$> List.find (fun c => String.eqb label (fst c)) frame.

(** The labels of a frame built from a list of dicts: the keys of the
    dicts in order of first appearance. *)
Fixpoint add_labels (seen : list string) (d : list (string * value)) : list string :=
  match d with
  | [] => seen
  | (k, _) :: d' =>
      if existsb (String.eqb k) seen then add_labels seen d'
      else add_labels (seen ++ [k]) d'
  end.

Definition labels_of (rows : list (list (string * value))) : list string :=
  fold_left add_labels rows [].

Definition cell_of (o : option value) : cell :=
  match o with
  | None => NaN
  | Some v => Obj v
  end.

(** [pandas.DataFrame(rows)] for a list of dicts: one row per dict, one
    column per key, a missing cell where a dict lacks the key.  The cells
    are kept as decoded.  pandas stores a column of integers with a missing
    or null cell as float64, which holds an integer exactly up to 2^53 in
    absolute value: the statements that read the labels of the groups
    carry that bound ([float_exact]) on the integers under "completed". *)
Definition DataFrame_of_dicts (rows : list (list (string * value))) : DataFrame :=
  map (fun label => (label, map (fun d => cell_of (dict_get d label)) rows))
      (labels_of rows).

(** The payload as a list of dicts, when it is one (the empty list too). *)
Fixpoint as_dicts (items : list value) : option (list (list (string * value))) :=
  match items with
  | [] => Some []
  | VDict d :: items' => cons d <$> as_dicts items'
  | _ :: _ => None
  end.

(** ** Grouping and counting *)

(** The group a row falls in: none when its label cell is NA (pandas
    drops such rows, [dropna=True] being the default of [groupby]), the
    hashed value otherwise. *)
Definition group_label (c : cell) : result (option key) :=
  match c with
  | NaN | Obj VNone | Obj VNaN => Ok None
  | Obj (VBool b) => Ok (Some (KNum (Z.b2z b)))
  | Obj (VInt z) => Ok (Some (KNum z))
  | Obj (VStr s) => Ok (Some (KStr s))
  | Obj (VList _) => Raise (TypeError "unhashable type: 'list'")
  | Obj (VDict _) => Raise (TypeError "unhashable type: 'dict'")
  end.

Fixpoint group_labels (cs : list cell) : result (list (option key)) :=
  match cs with
  | [] => Ok []
  | c :: cs' =>
      l ← group_label c;
      ls ← group_labels cs';
      Ok (l :: ls)
  end.

(** [frame.groupby(by)]: the frame with the column to group by. *)
Record DataFrameGroupBy : Type := {
  obj : DataFrame;
  grouper : list cell
}.

Definition groupby (frame : DataFrame) (by_ : string) : result DataFrameGroupBy :=
  match column frame by_ with
  | None => Raise (KeyError by_)
  | Some keys => Ok {| obj := frame; grouper := keys |}
  end.

(** [grouped[label]]: one column of the grouped frame. *)
Record SeriesGroupBy : Type := {
  by_cells : list cell;
  selected : list cell
}.

Definition getitem (g : DataFrameGroupBy) (label : string) : result SeriesGroupBy :=
  match column (obj g) label with
  | None => Raise (KeyError ("Column not found: " ++ label))
  | Some cs => Ok {| by_cells := grouper g; selected := cs |}
  end.

(** The groups: each label with the selected cells of its rows, in row
    order. *)
Fixpoint groups (labels : list (option key)) (cs : list cell) : gmap key (list cell) :=
  match labels, cs with
  | Some k :: labels', c :: cs' =>
      let m := groups labels' cs' in
      <[k := c :: default [] (m !! k)]> m
  | None :: labels', _ :: cs' => groups labels' cs'
  | _, _ => ∅
  end.

Definition count_notna (cs : list cell) : Z :=
  Z.of_nat (length (filter (fun c => notna c = true) cs)).

(** [.count()]: per group, the number of cells that are not NA. *)
Definition count (g : SeriesGroupBy) : result (gmap key Z) :=
  labels ← group_labels (by_cells g);
  Ok (count_notna <$> groups labels (selected g)).

(** [.to_dict()]: the series as a dict from index label to value. *)
Definition to_dict (s : gmap key Z) : gmap key Z := s.

(** ** The module *)

(** [requests.get(url)] raises or yields a response; [json r] is what
    [r.json()] does: the decoded body, or [JSONDecodeError] when the body
    is not well-formed JSON. *)
Record Response : Type := {
  status_code : Z;
  json : result value
}.

Definition network : Type := string -> result Response.

(** ** The body of a response and its decoder

    The body as the decoder reads it: cut into tokens, white space
    dropped.  Besides the tokens of JSON there is the literal NaN, which is
    not JSON and which Python's decoder accepts.  Numbers with a fraction
    or an exponent, and the literals Infinity and -Infinity, are left
    out. *)
Inductive token : Type :=
  | TLBracket
  | TRBracket
  | TLBrace
  | TRBrace
  | TColon
  | TComma
  | TNull
  | TTrue
  | TFalse
  | TInt (z : Z)
  | TString (s : string)
  | TNaN.

(** [d[k] = v] on a dict: a key already there keeps its place. *)
Fixpoint dict_set (d : list (string * value)) (k : string) (v : value)
    : list (string * value) :=
  match d with
  | [] => [(k, v)]
  | (k', v') :: d' =>
      if String.eqb k k' then (k', v) :: d' else (k', v') :: dict_set d' k v
  end.

(** One value off the front of the tokens, with the tokens left over;
    [parse_elements] and [parse_members] read on to the closing bracket. *)
Fixpoint parse_value (fuel : nat) (ts : list token) : option (value * list token) :=
  match fuel with
  | O => None
  | S n =>
      match ts with
      | TNull :: rest => Some (VNone, rest)
      | TTrue :: rest => Some (VBool true, rest)
      | TFalse :: rest => Some (VBool false, rest)
      | TInt z :: rest => Some (VInt z, rest)
      | TString s :: rest => Some (VStr s, rest)
      | TNaN :: rest => Some (VNaN, rest)
      | TLBracket :: TRBracket :: rest => Some (VList [], rest)
      | TLBracket :: rest =>
          match parse_elements n rest with
          | Some (items, rest') => Some (VList items, rest')
          | None => None
          end
      | TLBrace :: TRBrace :: rest => Some (VDict [], rest)
      | TLBrace :: rest =>
          match parse_members n [] rest with
          | Some (items, rest') => Some (VDict items, rest')
          | None => None
          end
      | _ => None
      end
  end
with parse_elements (fuel : nat) (ts : list token) : option (list value * list token) :=
  match fuel with
  | O => None
  | S n =>
      match parse_value n ts with
      | Some (v, TRBracket :: rest) => Some ([v], rest)
      | Some (v, TComma :: rest) =>
          match parse_elements n rest with
          | Some (items, rest') => Some (v :: items, rest')
          | None => None
          end
      | _ => None
      end
  end
with parse_members (fuel : nat) (d : list (string * value)) (ts : list token)
    : option (list (string * value) * list token) :=
  match fuel with
  | O => None
  | S n =>
      match ts with
      | TString k :: TColon :: rest =>
          match parse_value n rest with
          | Some (v, TRBrace :: rest') => Some (dict_set d k v, rest')
          | Some (v, TComma :: rest') => parse_members n (dict_set d k v) rest'
          | _ => None
          end
      | _ => None
      end
  end.

(** [json.loads] on the tokens of a body: one value and nothing after
    it, or [JSONDecodeError]. *)
Definition json_loads (body : list token) : result value :=
  match parse_value (2 * length body + 2) body with
  | Some (v, []) => Ok v
  | _ => Raise JSONDecodeError
  end.


(** The response with that status and that body. *)
Definition respond (status : Z) (body : list token) : Response :=
  {| status_code := status; json := json_loads body |}.

(** The process: its environment and the module's global. *)
Record process : Type := {
  environ : gmap string string;
  URI : string
}.

Definition getenv (env : gmap string string) (name fallback : string) : string :=
  default fallback (env !! name).

Definition default_URI : string := "https://jsonplaceholder.typicode.com/todos".

(** Loading the module evaluates [URI = os.getenv('URI', ...)]. *)
Definition import_index (env : gmap string string) : process :=
  {| environ := env; URI := getenv env "URI" default_URI |}.

(** What the process does to its environment afterwards. *)
Inductive env_op : Type :=
  | Putenv (name val : string)
  | Unsetenv (name : string).

Definition env_step (p : process) (op : env_op) : process :=
  match op with
  | Putenv name val => {| environ := <[name := val]> (environ p); URI := URI p |}
  | Unsetenv name => {| environ := delete name (environ p); URI := URI p |}
  end.

Definition env_steps (p : process) (ops : list env_op) : process :=
  fold_left env_step ops p.

(** An invocation: the URLs fetched, and what came back. *)
Record invocation : Type := {
  fetched : list string;
  returned : result (gmap string (gmap key Z))
}.

Section Handler.

(** [pandas.DataFrame] on a payload that is not a list of dicts. *)
Variable DataFrame_other : value -> result DataFrame.

Definition pandas_DataFrame (payload : value) : result DataFrame :=
  match payload with
  | VList items =>
      match as_dicts items with
      | Some rows => Ok (DataFrame_of_dicts rows)
      | None => DataFrame_other payload
      end
  | _ => DataFrame_other payload
  end.

(** Lines 11 to 13 of the source. *)
Definition summarise (resp : value) : result (gmap string (gmap key Z)) :=
  frame ← pandas_DataFrame resp;
  grouped ← groupby frame "completed";
  ids ← getitem grouped "id";
  counts ← count ids;
  Ok {[ "CompletedCount" := to_dict counts ]}.

Definition handler {E C : Type} (net : network) (p : process)
    (event : E) (context : C) : invocation :=
  {| fetched := [URI p];
     returned := r ← net (URI p); resp ← json r; summarise resp |}.

End Handler.

(** ** Vocabulary of the statements *)

(** The sum of all counts of a result mapping. *)
Definition total (m : gmap key Z) : Z :=
  map_fold (fun _ c acc => c + acc) 0 m.

Definition has_key (label : string) (d : list (string * value)) : bool :=
  match dict_get d label with
  | Some _ => true
  | None => false
  end.

Definition completed_cell (d : list (string * value)) : cell :=
  cell_of (dict_get d "completed").

Definition id_cell (d : list (string * value)) : cell :=
  cell_of (dict_get d "id").

(** A record whose "completed" can label a group: no list, no dict. *)
Definition keyable (d : list (string * value)) : bool :=
  match group_label (completed_cell d) with
  | Ok _ => true
  | Raise _ => false
  end.

(** A record with "completed" and "id" both present and not null. *)
Definition counted (d : list (string * value)) : bool :=
  notna (completed_cell d) && notna (id_cell d).

(** The running count: what one more row does to the counts. *)
Definition tally (l : option key) (c : cell) (m : gmap key Z) : gmap key Z :=
  match l with
  | None => m
  | Some k => <[k := (if notna c then 1 else 0) + default 0 (m !! k)]> m
  end.

(** A network that answers every URL with one response. *)
Definition serve (status : Z) (body : result value) : network :=
  fun _ => Ok {| status_code := status; json := body |}.

Definition unreachable : network := fun _ => Raise ConnectionError.

Definition todo (i : Z) (done : bool) : list (string * value) :=
  [("id", VInt i); ("completed", VBool done)].

(** [[{"id":1,"completed":true},{"id":2,"completed":false},{"id":3,"completed":true}]] *)
Definition three_rows : list (list (string * value)) :=
  [todo 1 true; todo 2 false; todo 3 true].

Definition three_todos : value := VList (map VDict three_rows).

(** [[{"id":1,"completed":true},{"id":2,"completed":false},{"id":3}]] *)
Definition stray_rows : list (list (string * value)) :=
  [todo 1 true; todo 2 false; [("id", VInt 3)]].

(** [[{"id":1,"completed":true},{"id":2}]] and
    [[{"id":1,"completed":true},{"id":2,"completed":null}]] *)
Definition lacking_rows : list (list (string * value)) :=
  [todo 1 true; [("id", VInt 2)]].

Definition null_rows : list (list (string * value)) :=
  [todo 1 true; [("id", VInt 2); ("completed", VNone)]].

(** [pandas.DataFrame] raising on every payload that is not a list of
    dicts: one behaviour among those the statements range over. *)
Definition strict_DataFrame : value -> result DataFrame :=
  fun _ => Raise (ValueError "DataFrame constructor not properly called!").

(** ** Vocabulary of the further statements *)

(** The GET of the process is answered by a response whose body decodes
    to [resp]. *)
Definition answers (net : network) (p : process) (resp : value) : Prop :=
  ∃ r, net (URI p) = Ok r ∧ json r = Ok resp.

(** The record falls in the group of [k]. *)
Definition label_is (k : key) (d : list (string * value)) : bool :=
  match group_label (completed_cell d) with
  | Ok (Some k') => bool_decide (k' = k)
  | _ => false
  end.

(** The records of the group of [k] whose "id" is present and not null. *)
Definition tally_of (k : key) (rows : list (list (string * value))) : Z :=
  Z.of_nat (length (List.filter (fun d => label_is k d && notna (id_cell d)) rows)).

(** What the result mapping holds under [k]: nothing when no record falls
    in that group. *)
Definition count_of (k : key) (rows : list (list (string * value))) : option Z :=
  if existsb (label_is k) rows then Some (tally_of k rows) else None.

(** Two result mappings added key by key. *)
Definition add_counts (m1 m2 : gmap key Z) : gmap key Z :=
  union_with (fun a b => Some (a + b)) m1 m2.

(** Arrays for the further statements. *)
Definition no_completed_rows : list (list (string * value)) :=
  [[("id", VInt 1)]; [("id", VInt 2); ("title", VStr "walk")]].

Definition no_id_rows : list (list (string * value)) :=
  [[("completed", VBool true)]; [("completed", VBool false)]].

Definition unhashable_rows : list (list (string * value)) :=
  [todo 1 true; [("id", VInt 2); ("completed", VList [VBool true])]].

Definition null_id_rows : list (list (string * value)) :=
  [[("id", VNone); ("completed", VBool true)]; todo 2 false].

Definition all_null_rows : list (list (string * value)) :=
  [[("id", VInt 1); ("completed", VNone)]; [("id", VInt 2)]].

Definition titled_rows : list (list (string * value)) :=
  [[("userId", VInt 7); ("id", VInt 1); ("title", VStr "walk"); ("completed", VBool true)]].

(** An integer under "completed" that a float64 holds exactly. *)
Definition float_exact (d : list (string * value)) : bool :=
  match dict_get d "completed" with
  | Some (VInt z) => (Z.abs z <=? 2 ^ 53)%Z
  | _ => true
  end.

(** A network with one reachable URL. *)
Definition only_at (url : string) (r : Response) : network :=
  fun u => if String.eqb u url then Ok r else Raise ConnectionError.

(** [[{"id":1,"completed":true},{"id":2,"completed":NaN}]] *)
Definition nan_body : list token :=
  [TLBracket;
   TLBrace; TString "id"; TColon; TInt 1; TComma;
            TString "completed"; TColon; TTrue; TRBrace; TComma;
   TLBrace; TString "id"; TColon; TInt 2; TComma;
            TString "completed"; TColon; TNaN; TRBrace;
   TRBracket].


(** ** Columns of a frame built from dicts *)

Lemma has_key_cons (l k : string) (v : value) (d : list (string * value)) :
  has_key l ((k, v) :: d) = String.eqb l k || has_key l d.
Proof. unfold has_key. simpl. destruct (String.eqb l k); reflexivity. Qed.

Lemma existsb_eqb_snoc (l k : string) (seen : list string) :
  existsb (String.eqb l) (seen ++ [k]) = existsb (String.eqb l) seen || String.eqb l k.
Proof. rewrite existsb_app. simpl. by rewrite orb_false_r. Qed.

Lemma add_labels_existsb (l : string) (d : list (string * value)) :
  ∀ seen, existsb (String.eqb l) (add_labels seen d)
          = existsb (String.eqb l) seen || has_key l d.
Proof.
  induction d as [|[k v] d IH]; intros seen; simpl.
  - by rewrite orb_false_r.
  - rewrite has_key_cons.
    destruct (existsb (String.eqb k) seen) eqn:Hk.
    + rewrite IH. destruct (String.eqb l k) eqn:Hlk; [|done].
      apply String.eqb_eq in Hlk. subst l. by rewrite Hk.
    + rewrite IH, existsb_eqb_snoc. by rewrite orb_assoc.
Qed.

Lemma fold_add_labels_existsb (l : string) (rows : list (list (string * value))) :
  ∀ seen, existsb (String.eqb l) (fold_left add_labels rows seen)
          = existsb (String.eqb l) seen || existsb (has_key l) rows.
Proof.
  induction rows as [|d rows IH]; intros seen; simpl.
  - by rewrite orb_false_r.
  - rewrite IH, add_labels_existsb. by rewrite orb_assoc.
Qed.

Lemma labels_of_existsb (l : string) (rows : list (list (string * value))) :
  existsb (String.eqb l) (labels_of rows) = existsb (has_key l) rows.
Proof. unfold labels_of. by rewrite fold_add_labels_existsb. Qed.

Lemma column_map (f : string → list cell) (l : string) (ls : list string) :
  column (map (fun x => (x, f x)) ls) l
  = if existsb (String.eqb l) ls then Some (f l) else None.
Proof.
  unfold column. induction ls as [|x ls IH]; simpl; [done|].
  destruct (String.eqb l x) eqn:Hlx; simpl; [|exact IH].
  apply String.eqb_eq in Hlx. by subst x.
Qed.

Lemma column_of_dicts (l : string) (rows : list (list (string * value))) :
  column (DataFrame_of_dicts rows) l
  = if existsb (has_key l) rows
    then Some (map (fun d => cell_of (dict_get d l)) rows) else None.
Proof.
  unfold DataFrame_of_dicts.
  rewrite (column_map (fun x => map (fun d => cell_of (dict_get d x)) rows)).
  by rewrite labels_of_existsb.
Qed.

Lemma as_dicts_VDict (rows : list (list (string * value))) :
  as_dicts (map VDict rows) = Some rows.
Proof. induction rows as [|d rows IH]; simpl; [done|]. by rewrite IH. Qed.

(** ** Counting, one row at a time *)

Lemma count_notna_cons (c : cell) (cs : list cell) :
  count_notna (c :: cs) = (if notna c then 1 else 0) + count_notna cs.
Proof.
  unfold count_notna. rewrite filter_cons.
  destruct (notna c); case_decide; try done; simpl length; lia.
Qed.

Lemma groups_fmap_cons (l : option key) (c : cell) (ls : list (option key)) (cs : list cell) :
  count_notna <$> groups (l :: ls) (c :: cs)
  = tally l c (count_notna <$> groups ls cs).
Proof.
  destruct l as [k|]; simpl; [|done].
  rewrite fmap_insert, lookup_fmap, count_notna_cons.
  destruct (groups ls cs !! k); simpl; [done|].
  unfold count_notna. simpl. done.
Qed.

Lemma count_cons (b c : cell) (bs cs : list cell) :
  count {| by_cells := b :: bs; selected := c :: cs |}
  = l ← group_label b;
    m ← count {| by_cells := bs; selected := cs |};
    Ok (tally l c m).
Proof.
  unfold count. cbn -[groups].
  destruct (group_label b) as [l|e]; cbn -[groups]; [|done].
  destruct (group_labels bs) as [ls|e]; cbn -[groups]; [|done].
  by rewrite groups_fmap_cons.
Qed.

Lemma count_nil (cs : list cell) :
  count {| by_cells := []; selected := cs |} = Ok ∅.
Proof. unfold count. simpl. by rewrite fmap_empty. Qed.

Lemma total_empty : total ∅ = 0.
Proof. unfold total. by rewrite map_fold_empty. Qed.

Lemma total_insert (k : key) (v : Z) (m : gmap key Z) :
  total (<[k := v]> m) = v + total m - default 0 (m !! k).
Proof.
  unfold total. destruct (m !! k) as [c|] eqn:Hk; simpl.
  - rewrite <- insert_delete_eq.
    rewrite map_fold_insert_L; [|intros; lia|apply lookup_delete_eq].
    rewrite (map_fold_delete_L _ _ k c m); [lia|intros; lia|done].
  - rewrite map_fold_insert_L; [lia|intros; lia|done].
Qed.

Lemma total_tally (l : option key) (c : cell) (m : gmap key Z) :
  total (tally l c m)
  = total m + (if is_Some_dec l then (if notna c then 1 else 0) else 0).
Proof.
  destruct l as [k|]; simpl; [|lia].
  rewrite total_insert. lia.
Qed.

(** ** The pipeline on a list of dicts *)

Section Properties.

Variable DataFrame_other : value -> result DataFrame.

Lemma summarise_dicts (rows : list (list (string * value))) :
  summarise DataFrame_other (VList (map VDict rows))
  = if existsb (has_key "completed") rows
    then if existsb (has_key "id") rows
         then counts ← count {| by_cells := map completed_cell rows;
                                selected := map id_cell rows |};
              Ok {[ "CompletedCount" := counts ]}
         else Raise (KeyError "Column not found: id")
    else Raise (KeyError "completed").
Proof.
  unfold summarise, pandas_DataFrame. rewrite as_dicts_VDict.
  cbn [mbind result_bind]. unfold groupby.
  rewrite column_of_dicts.
  destruct (existsb (has_key "completed") rows); [|done].
  cbn [mbind result_bind]. unfold getitem. cbn [obj grouper].
  rewrite column_of_dicts.
  destruct (existsb (has_key "id") rows); done.
Qed.

Lemma returned_handler {E C : Type} (net : network) (p : process)
    (event : E) (context : C) (r : Response) :
  net (URI p) = Ok r →
  returned (handler DataFrame_other net p event context)
  = (resp ← json r; summarise DataFrame_other resp).
Proof. intros Hnet. unfold handler. cbn [returned]. by rewrite Hnet. Qed.

End Properties.

Lemma group_label_is_Some (c : cell) (l : option key) :
  group_label c = Ok l → (if is_Some_dec l then true else false) = notna c.
Proof. destruct c as [|[]]; simpl; intros [= <-]; reflexivity. Qed.

Lemma count_nonneg (g : SeriesGroupBy) (m : gmap key Z) :
  count g = Ok m → ∀ k n, m !! k = Some n → 0 <= n.
Proof.
  unfold count. destruct (group_labels (by_cells g)) as [ls|e]; simpl; [|done].
  intros [= <-] k n. rewrite lookup_fmap.
  destruct (groups ls (selected g) !! k) as [cs|]; simpl; [|done].
  intros [= <-]. unfold count_notna. lia.
Qed.

Lemma count_total_dicts (rows : list (list (string * value))) :
  forallb keyable rows = true →
  ∃ m, count {| by_cells := map completed_cell rows; selected := map id_cell rows |} = Ok m
       ∧ total m = Z.of_nat (length (List.filter counted rows)).
Proof.
  induction rows as [|d rows IH]; simpl.
  - intros _. exists ∅. by rewrite count_nil, total_empty.
  - intros [Hd Hrows]%andb_prop. destruct (IH Hrows) as (m & Hm & Htot).
    rewrite count_cons, Hm. unfold keyable in Hd.
    destruct (group_label (completed_cell d)) as [l|e] eqn:Hl; [|done].
    cbn [mbind result_bind]. eexists; split; [done|].
    rewrite total_tally, Htot. apply group_label_is_Some in Hl.
    unfold counted. rewrite <- Hl.
    destruct (is_Some_dec l); simpl; [|lia].
    destruct (notna (id_cell d)); simpl length; lia.
Qed.

Lemma filter_all {A : Type} (f : A → bool) (l : list A) :
  forallb f l = true → List.filter f l = l.
Proof.
  induction l as [|a l IH]; simpl; [done|].
  intros [Ha Hl]%andb_prop. by rewrite Ha, IH.
Qed.

Lemma count_drop_na (b c : cell) (bs2 cs2 : list cell) :
  group_label b = Ok None →
  ∀ bs1 cs1, length bs1 = length cs1 →
  count {| by_cells := bs1 ++ b :: bs2; selected := cs1 ++ c :: cs2 |}
  = count {| by_cells := bs1 ++ bs2; selected := cs1 ++ cs2 |}.
Proof.
  intros Hb. induction bs1 as [|b1 bs1 IH]; intros [|c1 cs1] Hlen; try done.
  - simpl. rewrite count_cons, Hb. cbn [mbind result_bind].
    destruct (count _); done.
  - simpl. rewrite !count_cons, IH by (simpl in Hlen; lia). done.
Qed.

Lemma notna_group_label (c : cell) : notna c = false → group_label c = Ok None.
Proof. destruct c as [|[]]; simpl; done. Qed.

Lemma existsb_app_drop {A : Type} (f : A → bool) (l1 l2 : list A) (a : A) :
  existsb f (l1 ++ l2) = true → existsb f (l1 ++ a :: l2) = true.
Proof.
  rewrite !existsb_app. simpl. intros [-> | ->]%orb_prop; [done|].
  by rewrite !orb_true_r.
Qed.

(** ** The handler *)

Section Invocations.

Variable DataFrame_other : value -> result DataFrame.

Context {E C : Type}.

(** C1: when the upstream body is
    [[{"id":1,"completed":true},{"id":2,"completed":false},{"id":3,"completed":true}]]
    the handler returns the mapping with the single key "CompletedCount",
    under it count 2 for true and count 1 for false. *)
Theorem handler_three_todos (net : network) (p : process) (event : E)
    (context : C) (r : Response) :
  net (URI p) = Ok r →
  json r = Ok three_todos →
  returned (handler DataFrame_other net p event context)
  = Ok {[ "CompletedCount" := {[ KTrue := 2; KFalse := 1 ]} ]}.
Proof.
  intros Hnet Hjson. rewrite (returned_handler _ _ _ _ _ r Hnet), Hjson.
  vm_compute. reflexivity.
Qed.

(** C2, as amended: for an array of records of which one carries
    "completed" and one carries "id", and in which no "completed" is a list
    or an object, the handler returns, and the sum of all counts is the
    number of records whose "completed" and "id" are both present and not
    null; it is the number of records when every record is such. *)
Theorem sum_of_counts (net : network) (p : process) (event : E) (context : C)
    (r : Response) (rows : list (list (string * value))) :
  net (URI p) = Ok r →
  json r = Ok (VList (map VDict rows)) →
  existsb (has_key "completed") rows = true →
  existsb (has_key "id") rows = true →
  forallb keyable rows = true →
  ∃ m, returned (handler DataFrame_other net p event context)
       = Ok {[ "CompletedCount" := m ]}
     ∧ total m = Z.of_nat (length (List.filter counted rows))
     ∧ (forallb counted rows = true → total m = Z.of_nat (length rows)).
Proof.
  intros Hnet Hjson Hcompleted Hid Hkeys.
  rewrite (returned_handler _ _ _ _ _ r Hnet), Hjson. cbn [mbind result_bind].
  rewrite summarise_dicts, Hcompleted, Hid.
  destruct (count_total_dicts rows Hkeys) as (m & -> & Htot).
  exists m. split; [done|]. split; [done|].
  intros Hall. by rewrite Htot, filter_all.
Qed.

(** C3: on the empty array [[]] the handler raises [KeyError: 'completed']
    (the frame has no column), where the specification has it return
    [{"CompletedCount": {}}]. *)
Theorem handler_empty_array (status : Z) (p : process) (event : E) (context : C) :
  returned (handler DataFrame_other (serve status (Ok (VList []))) p event context)
  = Raise (KeyError "completed").
Proof. reflexivity. Qed.

(** C4, as amended: a record that lacks "completed", or carries null there,
    is dropped: while the other records carry a "completed" and an "id", and
    their integer "completed" values are at most 2^53 in absolute value (so
    that the float64 column pandas makes of integers with a gap holds them
    exactly), the handler returns for the array what it returns for the
    array without that record. *)
Theorem na_completed_dropped (status status' : Z) (p : process) (event : E)
    (context : C) (rows1 rows2 : list (list (string * value)))
    (d : list (string * value)) :
  notna (completed_cell d) = false →
  existsb (has_key "completed") (rows1 ++ rows2) = true →
  existsb (has_key "id") (rows1 ++ rows2) = true →
  forallb float_exact (rows1 ++ rows2) = true →
  returned (handler DataFrame_other
              (serve status (Ok (VList (map VDict (rows1 ++ d :: rows2)))))
              p event context)
  = returned (handler DataFrame_other
                (serve status' (Ok (VList (map VDict (rows1 ++ rows2)))))
                p event context).
Proof.
  intros Hna Hcompleted Hid _. unfold handler, serve. cbn [returned mbind result_bind json].
  rewrite !summarise_dicts, Hcompleted, Hid.
  rewrite !(existsb_app_drop _ _ _ d) by done.
  rewrite !map_app. simpl map.
  rewrite count_drop_na; [done|by apply notna_group_label|].
  by rewrite !length_map.
Qed.

(** C5, as amended: when the host is unreachable ([requests.get] raises)
    the invocation fails with that error; the status of a response is not
    looked at: two responses with the same body give the same outcome,
    whatever their statuses. *)
Theorem unreachable_fails_status_ignored (net net' : network) (p : process)
    (event : E) (context : C) :
  (∀ e, net (URI p) = Raise e →
        returned (handler DataFrame_other net p event context) = Raise e)
  ∧ (∀ r r', net (URI p) = Ok r → net' (URI p) = Ok r' → json r = json r' →
        returned (handler DataFrame_other net p event context)
        = returned (handler DataFrame_other net' p event context)).
Proof.
  split.
  - intros e Hnet. unfold handler. cbn [returned]. by rewrite Hnet.
  - intros r r' Hnet Hnet' Hjson.
    by rewrite (returned_handler _ _ _ _ _ r Hnet),
               (returned_handler _ _ _ _ _ r' Hnet'), Hjson.
Qed.


(** C7: the URL comes from the environment variable "URI": the GET goes to
    its value when it is set, and to
    "https://jsonplaceholder.typicode.com/todos" when it is not: that URL
    is the one fetched, and what the invocation returns is made from what
    the network answers there. *)
Theorem fetched_URI (net : network) (env : gmap string string) (event : E)
    (context : C) :
  (∀ url, env !! "URI" = Some url →
     fetched (handler DataFrame_other net (import_index env) event context) = [url]
     ∧ returned (handler DataFrame_other net (import_index env) event context)
       = (r ← net url; resp ← json r; summarise DataFrame_other resp))
  ∧ (env !! "URI" = None →
     fetched (handler DataFrame_other net (import_index env) event context)
     = ["https://jsonplaceholder.typicode.com/todos"]
     ∧ returned (handler DataFrame_other net (import_index env) event context)
       = (r ← net "https://jsonplaceholder.typicode.com/todos";
          resp ← json r; summarise DataFrame_other resp)).
Proof.
  split.
  - intros url Hset. unfold handler, import_index, getenv.
    cbn [fetched returned URI]. by rewrite Hset.
  - intros Hunset. unfold handler, import_index, getenv.
    cbn [fetched returned URI]. by rewrite Hunset.
Qed.

(** C8: two invocations that get the same upstream response return the
    same result, whatever their events and contexts. *)
Theorem event_context_unused {E' C' : Type} (net net' : network) (p : process)
    (event : E) (context : C) (event' : E') (context' : C') :
  net (URI p) = net' (URI p) →
  returned (handler DataFrame_other net p event context)
  = returned (handler DataFrame_other net' p event' context').
Proof. intros Hnet. unfold handler. cbn [returned]. by rewrite Hnet. Qed.

(** C9: the URL is read from the environment once, when the module is
    loaded: whatever is done to the environment afterwards, the handler
    fetches the URL found at load time, and behaves as before. *)
Theorem URI_read_at_import (net : network) (env : gmap string string)
    (ops : list env_op) (event : E) (context : C) :
  fetched (handler DataFrame_other net (env_steps (import_index env) ops) event context)
  = [getenv env "URI" default_URI]
  ∧ handler DataFrame_other net (env_steps (import_index env) ops) event context
    = handler DataFrame_other net (import_index env) event context.
Proof.
  assert (HURI : ∀ p, URI (env_steps p ops) = URI p).
  { induction ops as [|op ops' IH]; intros p; simpl; [done|].
    rewrite IH. by destruct op. }
  unfold handler. rewrite HURI. by split.
Qed.

(** C10: a successful invocation returns a dictionary with exactly one
    key, "CompletedCount", whose value maps completed-values to
    non-negative counts. *)
Theorem handler_result_shape (net : network) (p : process) (event : E)
    (context : C) (d : gmap string (gmap key Z)) :
  returned (handler DataFrame_other net p event context) = Ok d →
  dom d = {[ "CompletedCount" ]}
  ∧ ∃ m, d = {[ "CompletedCount" := m ]} ∧ ∀ k n, m !! k = Some n → 0 <= n.
Proof.
  unfold handler. cbn [returned].
  destruct (net (URI p)) as [r|e]; cbn [mbind result_bind]; [|done].
  destruct (json r) as [resp|e]; cbn [mbind result_bind]; [|done].
  unfold summarise.
  destruct (pandas_DataFrame DataFrame_other resp) as [frame|e];
    cbn [mbind result_bind]; [|done].
  destruct (groupby frame "completed") as [g|e]; cbn [mbind result_bind]; [|done].
  destruct (getitem g "id") as [ids|e]; cbn [mbind result_bind]; [|done].
  destruct (count ids) as [m|e] eqn:Hcount; cbn [mbind result_bind]; [|done].
  intros [= <-]. split; [by rewrite dom_singleton_L|].
  exists m. split; [done|]. by apply (count_nonneg ids).
Qed.

End Invocations.

(** ** The statements at concrete invocations *)

Lemma handler_three_todos_witness :
  returned (handler strict_DataFrame (serve 200 (Ok three_todos)) (import_index ∅) tt tt)
  = Ok {[ "CompletedCount" := {[ KTrue := 2; KFalse := 1 ]} ]}.
Proof.
  apply (handler_three_todos strict_DataFrame (serve 200 (Ok three_todos))
           (import_index ∅) tt tt {| status_code := 200; json := Ok three_todos |});
    reflexivity.
Defined.

Lemma sum_of_counts_witness :
  ∃ m, returned (handler strict_DataFrame (serve 200 (Ok three_todos))
                   (import_index ∅) tt tt)
       = Ok {[ "CompletedCount" := m ]}
     ∧ total m = Z.of_nat (length (List.filter counted three_rows))
     ∧ (forallb counted three_rows = true → total m = Z.of_nat (length three_rows)).
Proof.
  apply (sum_of_counts strict_DataFrame (serve 200 (Ok three_todos))
           (import_index ∅) tt tt
           {| status_code := 200; json := Ok three_todos |} three_rows);
    reflexivity.
Defined.

(** At [stray_rows] the counts are 1 and 1, and the records are three. *)
Lemma sum_of_counts_counterexample :
  returned (handler strict_DataFrame (serve 200 (Ok (VList (map VDict stray_rows))))
              (import_index ∅) tt tt)
  = Ok {[ "CompletedCount" := {[ KTrue := 1; KFalse := 1 ]} ]}
  ∧ total {[ KTrue := 1; KFalse := 1 ]} ≠ Z.of_nat (length stray_rows).
Proof. split; [vm_compute; reflexivity|]. vm_compute. discriminate. Qed.

Lemma na_completed_dropped_witness :
  returned (handler strict_DataFrame (serve 200 (Ok (VList (map VDict lacking_rows))))
              (import_index ∅) tt tt)
  = returned (handler strict_DataFrame
                (serve 200 (Ok (VList (map VDict [todo 1 true]))))
                (import_index ∅) tt tt).
Proof.
  apply (na_completed_dropped strict_DataFrame 200 200 (import_index ∅) tt tt
           [todo 1 true] [] [("id", VInt 2)]);
    reflexivity.
Defined.

(** The record without "completed", and the one with null there, are under
    no key: true, with count 1, is the only one. *)
Lemma na_completed_counterexample :
  returned (handler strict_DataFrame (serve 200 (Ok (VList (map VDict lacking_rows))))
              (import_index ∅) tt tt)
  = Ok {[ "CompletedCount" := {[ KTrue := 1 ]} ]}
  ∧ returned (handler strict_DataFrame (serve 200 (Ok (VList (map VDict null_rows))))
                (import_index ∅) tt tt)
    = Ok {[ "CompletedCount" := {[ KTrue := 1 ]} ]}.
Proof. split; vm_compute; reflexivity. Qed.

Lemma unreachable_fails_status_ignored_witness :
  returned (handler strict_DataFrame unreachable (import_index ∅) tt tt)
  = Raise ConnectionError
  ∧ returned (handler strict_DataFrame (serve 503 (Ok three_todos)) (import_index ∅) tt tt)
    = returned (handler strict_DataFrame (serve 200 (Ok three_todos)) (import_index ∅) tt tt).
Proof.
  split.
  - apply (proj1 (unreachable_fails_status_ignored strict_DataFrame unreachable
                    unreachable (import_index ∅) tt tt)).
    reflexivity.
  - apply (proj2 (unreachable_fails_status_ignored strict_DataFrame
                    (serve 503 (Ok three_todos)) (serve 200 (Ok three_todos))
                    (import_index ∅) tt tt)
             {| status_code := 503; json := Ok three_todos |}
             {| status_code := 200; json := Ok three_todos |});
      reflexivity.
Defined.

(** A response with status 503 and the three todos as its body: the
    handler returns their counts. *)
Lemma non_200_counterexample :
  status_code {| status_code := 503; json := Ok three_todos |} ≠ 200
  ∧ returned (handler strict_DataFrame (serve 503 (Ok three_todos)) (import_index ∅) tt tt)
    = Ok {[ "CompletedCount" := {[ KTrue := 2; KFalse := 1 ]} ]}.
Proof. split; [simpl; discriminate|]. vm_compute. reflexivity. Qed.



Lemma fetched_URI_witness :
  (fetched (handler strict_DataFrame
              (only_at "http://localhost:8080/todos" (respond 200 nan_body))
              (import_index {[ "URI" := "http://localhost:8080/todos" ]}) tt tt)
   = ["http://localhost:8080/todos"]
   ∧ returned (handler strict_DataFrame
                 (only_at "http://localhost:8080/todos" (respond 200 nan_body))
                 (import_index {[ "URI" := "http://localhost:8080/todos" ]}) tt tt)
     = Ok {[ "CompletedCount" := {[ KTrue := 1 ]} ]})
  ∧ (fetched (handler strict_DataFrame
                (only_at "http://localhost:8080/todos" (respond 200 nan_body))
                (import_index ∅) tt tt)
     = ["https://jsonplaceholder.typicode.com/todos"]
     ∧ returned (handler strict_DataFrame
                   (only_at "http://localhost:8080/todos" (respond 200 nan_body))
                   (import_index ∅) tt tt)
       = Raise ConnectionError).
Proof.
  split.
  - assert (Hset : ({[ "URI" := "http://localhost:8080/todos" ]} : gmap string string)
                   !! "URI" = Some "http://localhost:8080/todos") by reflexivity.
    destruct (proj1 (fetched_URI strict_DataFrame
                       (only_at "http://localhost:8080/todos" (respond 200 nan_body))
                       {[ "URI" := "http://localhost:8080/todos" ]} tt tt)
                "http://localhost:8080/todos" Hset) as [Hfetched Hreturned].
    split; [exact Hfetched|]. rewrite Hreturned. vm_compute. reflexivity.
  - assert (Hunset : (∅ : gmap string string) !! "URI" = None) by reflexivity.
    destruct (proj2 (fetched_URI strict_DataFrame
                       (only_at "http://localhost:8080/todos" (respond 200 nan_body))
                       ∅ tt tt) Hunset) as [Hfetched Hreturned].
    split; [exact Hfetched|]. rewrite Hreturned. vm_compute. reflexivity.
Defined.

Lemma event_context_unused_witness :
  returned (handler strict_DataFrame (serve 200 (Ok three_todos)) (import_index ∅) tt 0)
  = returned (handler strict_DataFrame (serve 200 (Ok three_todos)) (import_index ∅)
                "event" [true]).
Proof.
  apply (event_context_unused strict_DataFrame (serve 200 (Ok three_todos))
           (serve 200 (Ok three_todos)) (import_index ∅) tt 0 "event" [true]).
  reflexivity.
Defined.

Lemma handler_result_shape_witness :
  dom ({[ "CompletedCount" := {[ KTrue := 2; KFalse := 1 ]} ]} : gmap string (gmap key Z))
  = {[ "CompletedCount" ]}
  ∧ ∃ m : gmap key Z,
      ({[ "CompletedCount" := {[ KTrue := 2; KFalse := 1 ]} ]} : gmap string (gmap key Z))
      = {[ "CompletedCount" := m ]}
      ∧ ∀ k n, m !! k = Some n → 0 <= n.
Proof.
  apply (handler_result_shape strict_DataFrame (serve 200 (Ok three_todos))
           (import_index ∅) tt tt).
  vm_compute. reflexivity.
Defined.

(** ** The counts, key by key *)

Lemma returned_answers (other : value → result DataFrame) {E C : Type}
    (net : network) (p : process) (event : E) (context : C) (resp : value) :
  answers net p resp →
  returned (handler other net p event context) = summarise other resp.
Proof.
  intros (r & Hnet & Hjson). by rewrite (returned_handler _ _ _ _ _ r Hnet), Hjson.
Qed.

Lemma tally_of_cons (k : key) (d : list (string * value))
    (rows : list (list (string * value))) :
  tally_of k (d :: rows)
  = (if label_is k d && notna (id_cell d) then 1 else 0) + tally_of k rows.
Proof.
  unfold tally_of. simpl.
  destruct (label_is k d && notna (id_cell d)); simpl length; lia.
Qed.

Lemma tally_of_unseen (k : key) (rows : list (list (string * value))) :
  existsb (label_is k) rows = false → tally_of k rows = 0.
Proof.
  induction rows as [|d rows IH]; [done|]. simpl.
  intros [Hd Hrows]%orb_false_elim. rewrite tally_of_cons, Hd, IH by done. done.
Qed.

Lemma count_of_default (k : key) (rows : list (list (string * value))) :
  default 0 (count_of k rows) = tally_of k rows.
Proof.
  unfold count_of. destruct (existsb (label_is k) rows) eqn:Hk; simpl; [done|].
  by rewrite tally_of_unseen.
Qed.

Lemma count_of_cons (k : key) (d : list (string * value))
    (rows : list (list (string * value))) (l : option key) :
  group_label (completed_cell d) = Ok l →
  ∀ m : gmap key Z, (∀ k', m !! k' = count_of k' rows) →
  tally l (id_cell d) m !! k = count_of k (d :: rows).
Proof.
  intros Hl m Hm.
  assert (Hlab : label_is k d
                 = match l with Some k' => bool_decide (k' = k) | None => false end).
  { unfold label_is. by rewrite Hl. }
  unfold count_of. simpl existsb. rewrite tally_of_cons, Hlab.
  destruct l as [k'|]; simpl.
  - rewrite lookup_insert. case_bool_decide as Hkk; simpl.
    + subst k'. rewrite decide_True by done.
      rewrite Hm, count_of_default. by destruct (notna (id_cell d)).
    + rewrite decide_False by done. rewrite Hm. done.
  - by rewrite Hm.
Qed.

Lemma count_dicts_lookup (rows : list (list (string * value))) :
  forallb keyable rows = true →
  ∃ m, count {| by_cells := map completed_cell rows; selected := map id_cell rows |} = Ok m
       ∧ ∀ k, m !! k = count_of k rows.
Proof.
  induction rows as [|d rows IH]; simpl.
  - intros _. exists ∅. rewrite count_nil. split; [done|].
    intros k. by rewrite lookup_empty.
  - intros [Hd Hrows]%andb_prop. destruct (IH Hrows) as (m & Hm & Hlookup).
    rewrite count_cons, Hm. unfold keyable in Hd.
    destruct (group_label (completed_cell d)) as [l|e] eqn:Hl; [|done].
    cbn [mbind result_bind]. eexists; split; [done|].
    intros k. by apply count_of_cons.
Qed.

Lemma group_label_TypeError (c : cell) (e : exn) :
  group_label c = Raise e → ∃ msg, e = TypeError msg.
Proof. destruct c as [|[]]; simpl; intros [= <-]; eauto. Qed.

Lemma count_dicts_unkeyable (rows : list (list (string * value))) :
  forallb keyable rows = false →
  ∃ msg, count {| by_cells := map completed_cell rows; selected := map id_cell rows |}
         = Raise (TypeError msg).
Proof.
  induction rows as [|d rows IH]; simpl; [done|].
  rewrite count_cons. unfold keyable at 1.
  destruct (group_label (completed_cell d)) as [l|e] eqn:Hl; simpl.
  - intros Hrows. destruct (IH Hrows) as (msg & ->). by exists msg.
  - intros _. destruct (group_label_TypeError _ _ Hl) as (msg & ->). by exists msg.
Qed.




Lemma tally_of_app (k : key) (rows1 rows2 : list (list (string * value))) :
  tally_of k (rows1 ++ rows2) = tally_of k rows1 + tally_of k rows2.
Proof.
  induction rows1 as [|d rows1 IH]; simpl.
  - unfold tally_of at 2. simpl. lia.
  - rewrite !tally_of_cons, IH. lia.
Qed.

Lemma agree_on_both_fields (rows1 rows2 : list (list (string * value))) :
  Forall2 (fun d1 d2 => dict_get d1 "completed" = dict_get d2 "completed"
                        ∧ dict_get d1 "id" = dict_get d2 "id") rows1 rows2 →
  map completed_cell rows1 = map completed_cell rows2
  ∧ map id_cell rows1 = map id_cell rows2
  ∧ existsb (has_key "completed") rows1 = existsb (has_key "completed") rows2
  ∧ existsb (has_key "id") rows1 = existsb (has_key "id") rows2.
Proof.
  induction 1 as [|d1 d2 rows1 rows2 [Hc Hi] _ (IH1 & IH2 & IH3 & IH4)]; simpl; [done|].
  assert (Hcell : completed_cell d1 = completed_cell d2)
    by (unfold completed_cell; by rewrite Hc).
  assert (Hid : id_cell d1 = id_cell d2) by (unfold id_cell; by rewrite Hi).
  assert (Hkc : has_key "completed" d1 = has_key "completed" d2)
    by (unfold has_key; by rewrite Hc).
  assert (Hki : has_key "id" d1 = has_key "id" d2) by (unfold has_key; by rewrite Hi).
  by rewrite Hcell, Hid, Hkc, Hki, IH1, IH2, IH3, IH4.
Qed.

Lemma filter_length_bound {A : Type} (f : A → bool) (l : list A) :
  (length (List.filter f l) <= length l)%nat.
Proof. induction l as [|a l IH]; simpl; [lia|]. destruct (f a); simpl; lia. Qed.

Lemma singleton_counts_inj (m1 m2 : gmap key Z) :
  ({[ "CompletedCount" := m1 ]} : gmap string (gmap key Z)) = {[ "CompletedCount" := m2 ]} →
  m1 = m2.
Proof.
  intros Heq. apply (f_equal (fun d => d !! "CompletedCount")) in Heq.
  rewrite !lookup_singleton_eq in Heq. by injection Heq.
Qed.

Lemma count_of_app (k : key) (rows1 rows2 : list (list (string * value))) :
  count_of k (rows1 ++ rows2)
  = union_with (fun a b => Some (a + b)) (count_of k rows1) (count_of k rows2).
Proof.
  unfold count_of. rewrite existsb_app, tally_of_app.
  destruct (existsb (label_is k) rows1) eqn:H1, (existsb (label_is k) rows2) eqn:H2;
    simpl; try done.
  - rewrite (tally_of_unseen k rows2) by done. f_equal. lia.
  - rewrite (tally_of_unseen k rows1) by done. f_equal.
Qed.

(** ** The handler on an array of records *)

Section Records.

Variable DataFrame_other : value -> result DataFrame.

Context {E C : Type}.

Lemma summarise_dicts_Ok (rows : list (list (string * value)))
    (d : gmap string (gmap key Z)) :
  summarise DataFrame_other (VList (map VDict rows)) = Ok d →
  existsb (has_key "completed") rows = true
  ∧ existsb (has_key "id") rows = true
  ∧ forallb keyable rows = true
  ∧ ∃ m, d = {[ "CompletedCount" := m ]} ∧ ∀ k, m !! k = count_of k rows.
Proof.
  rewrite summarise_dicts.
  destruct (existsb (has_key "completed") rows); [|done].
  destruct (existsb (has_key "id") rows); [|done].
  destruct (forallb keyable rows) eqn:Hkeys.
  - destruct (count_dicts_lookup rows Hkeys) as (m & -> & Hm).
    cbn [mbind result_bind]. intros [= <-]. repeat split; try done. by exists m.
  - destruct (count_dicts_unkeyable rows Hkeys) as (msg & ->). done.
Qed.

Lemma summarise_dicts_counts (rows : list (list (string * value))) :
  existsb (has_key "completed") rows = true →
  existsb (has_key "id") rows = true →
  forallb keyable rows = true →
  ∃ m, summarise DataFrame_other (VList (map VDict rows)) = Ok {[ "CompletedCount" := m ]}
       ∧ ∀ k, m !! k = count_of k rows.
Proof.
  intros Hc Hi Hkeys. rewrite summarise_dicts, Hc, Hi.
  destruct (count_dicts_lookup rows Hkeys) as (m & -> & Hm). by exists m.
Qed.

(** X1: when no record of the array carries a "completed" field, the empty
    array included, the invocation fails with [KeyError: 'completed']. *)
Theorem no_completed_field_raises (net : network) (p : process) (event : E)
    (context : C) (rows : list (list (string * value))) :
  answers net p (VList (map VDict rows)) →
  existsb (has_key "completed") rows = false →
  returned (handler DataFrame_other net p event context) = Raise (KeyError "completed").
Proof.
  intros Hnet Hc. by rewrite (returned_answers _ _ _ _ _ _ Hnet), summarise_dicts, Hc.
Qed.

(** X2: when some record carries "completed" and none carries "id", the
    invocation fails with [KeyError: 'Column not found: id']. *)
Theorem no_id_field_raises (net : network) (p : process) (event : E)
    (context : C) (rows : list (list (string * value))) :
  answers net p (VList (map VDict rows)) →
  existsb (has_key "completed") rows = true →
  existsb (has_key "id") rows = false →
  returned (handler DataFrame_other net p event context)
  = Raise (KeyError "Column not found: id").
Proof.
  intros Hnet Hc Hi.
  by rewrite (returned_answers _ _ _ _ _ _ Hnet), summarise_dicts, Hc, Hi.
Qed.

(** X3: when both fields occur and the "completed" of some record is a
    list or an object, the invocation fails with a [TypeError]. *)
Theorem unhashable_completed_raises (net : network) (p : process) (event : E)
    (context : C) (rows : list (list (string * value))) :
  answers net p (VList (map VDict rows)) →
  existsb (has_key "completed") rows = true →
  existsb (has_key "id") rows = true →
  forallb keyable rows = false →
  ∃ msg, returned (handler DataFrame_other net p event context)
         = Raise (TypeError msg).
Proof.
  intros Hnet Hc Hi Hkeys.
  rewrite (returned_answers _ _ _ _ _ _ Hnet), summarise_dicts, Hc, Hi.
  destruct (count_dicts_unkeyable rows Hkeys) as (msg & ->). by exists msg.
Qed.

(** X4: on an array of records the handler returns exactly when some
    record carries "completed", some record carries "id", and no
    "completed" is a list or an object. *)
Theorem handler_returns_iff (net : network) (p : process) (event : E)
    (context : C) (rows : list (list (string * value))) :
  answers net p (VList (map VDict rows)) →
  (∃ d, returned (handler DataFrame_other net p event context) = Ok d)
  ↔ existsb (has_key "completed") rows = true
    ∧ existsb (has_key "id") rows = true
    ∧ forallb keyable rows = true.
Proof.
  intros Hnet. rewrite (returned_answers _ _ _ _ _ _ Hnet). split.
  - intros (d & Hd). apply summarise_dicts_Ok in Hd. tauto.
  - intros (Hc & Hi & Hkeys).
    destruct (summarise_dicts_counts rows Hc Hi Hkeys) as (m & -> & _). eauto.
Qed.

(** X5: in the mapping returned for an array of records whose integer
    "completed" values are at most 2^53 in absolute value, a key is present
    exactly when some record has that "completed" value, and its count is
    the number of records with that value whose "id" is present and not
    null. *)
Theorem counts_by_key (net : network) (p : process) (event : E) (context : C)
    (rows : list (list (string * value))) (d : gmap string (gmap key Z)) :
  answers net p (VList (map VDict rows)) →
  forallb float_exact rows = true →
  returned (handler DataFrame_other net p event context) = Ok d →
  ∃ m, d = {[ "CompletedCount" := m ]}
     ∧ ∀ k, m !! k = if existsb (label_is k) rows
                     then Some (tally_of k rows) else None.
Proof.
  intros Hnet _. rewrite (returned_answers _ _ _ _ _ _ Hnet).
  intros (_ & _ & _ & m & -> & Hm)%summarise_dicts_Ok. by exists m.
Qed.

(** X6: for an array of records whose integer "completed" values are at
    most 2^53 in absolute value, a group all of whose records have a missing
    or null "id" is listed with count 0. *)
Theorem group_without_ids_counts_zero (net : network) (p : process) (event : E)
    (context : C) (rows : list (list (string * value)))
    (m : gmap key Z) (k : key) :
  answers net p (VList (map VDict rows)) →
  forallb float_exact rows = true →
  returned (handler DataFrame_other net p event context)
  = Ok {[ "CompletedCount" := m ]} →
  existsb (label_is k) rows = true →
  forallb (fun d => negb (label_is k d && notna (id_cell d))) rows = true →
  m !! k = Some 0.
Proof.
  intros Hnet _. rewrite (returned_answers _ _ _ _ _ _ Hnet).
  intros (_ & _ & _ & m' & <-%singleton_counts_inj & Hm)%summarise_dicts_Ok Hk Hids.
  rewrite Hm. unfold count_of. rewrite Hk. f_equal.
  clear -Hids. induction rows as [|d rows IH]; [done|].
  simpl in Hids. apply andb_prop in Hids as [Hd Hrows].
  rewrite tally_of_cons, IH by done. apply negb_true_iff in Hd. by rewrite Hd.
Qed.

(** X7: when some record carries "completed" and some carries "id", but
    every "completed" is missing or null, the handler returns the empty
    mapping under "CompletedCount". *)
Theorem all_completed_null_gives_empty (net : network) (p : process) (event : E)
    (context : C) (rows : list (list (string * value))) :
  answers net p (VList (map VDict rows)) →
  existsb (has_key "completed") rows = true →
  existsb (has_key "id") rows = true →
  forallb (fun d => negb (notna (completed_cell d))) rows = true →
  returned (handler DataFrame_other net p event context)
  = Ok {[ "CompletedCount" := ∅ ]}.
Proof.
  intros Hnet Hc Hi Hnull.
  assert (Hlabels : ∀ d, d ∈ rows → group_label (completed_cell d) = Ok None).
  { intros d Hd. apply notna_group_label, negb_true_iff.
    rewrite forallb_forall in Hnull. by apply Hnull, list_elem_of_In. }
  assert (Hkeys : forallb keyable rows = true).
  { apply forallb_forall. intros d Hd%list_elem_of_In.
    unfold keyable. by rewrite Hlabels. }
  rewrite (returned_answers _ _ _ _ _ _ Hnet).
  destruct (summarise_dicts_counts rows Hc Hi Hkeys) as (m & -> & Hm).
  do 2 f_equal. apply map_eq. intros k. rewrite Hm, lookup_empty.
  unfold count_of. replace (existsb (label_is k) rows) with false; [done|].
  symmetry. apply not_true_is_false. intros (d & Hd%list_elem_of_In & Hk)%existsb_exists.
  unfold label_is in Hk. by rewrite Hlabels in Hk.
Qed.

(** X8: the counts of a concatenation are the sums of the counts: when the
    handler returns [m1] for one array and [m2] for another, and the integer
    "completed" values of both are at most 2^53 in absolute value, it
    returns their key-wise sum for the two arrays put end to end. *)
Theorem counts_of_concatenation (net1 net2 net : network) (p : process)
    (event : E) (context : C) (rows1 rows2 : list (list (string * value)))
    (m1 m2 : gmap key Z) :
  answers net1 p (VList (map VDict rows1)) →
  answers net2 p (VList (map VDict rows2)) →
  answers net p (VList (map VDict (rows1 ++ rows2))) →
  forallb float_exact (rows1 ++ rows2) = true →
  returned (handler DataFrame_other net1 p event context)
  = Ok {[ "CompletedCount" := m1 ]} →
  returned (handler DataFrame_other net2 p event context)
  = Ok {[ "CompletedCount" := m2 ]} →
  returned (handler DataFrame_other net p event context)
  = Ok {[ "CompletedCount" := add_counts m1 m2 ]}.
Proof.
  intros Hnet1 Hnet2 Hnet _.
  rewrite (returned_answers _ _ _ _ _ _ Hnet1), (returned_answers _ _ _ _ _ _ Hnet2),
          (returned_answers _ _ _ _ _ _ Hnet).
  intros (Hc1 & Hi1 & Hk1 & m1' & <-%singleton_counts_inj & Hm1)%summarise_dicts_Ok.
  intros (Hc2 & Hi2 & Hk2 & m2' & <-%singleton_counts_inj & Hm2)%summarise_dicts_Ok.
  destruct (summarise_dicts_counts (rows1 ++ rows2)) as (m & -> & Hm).
  { by rewrite existsb_app, Hc1. }
  { by rewrite existsb_app, Hi1. }
  { by rewrite forallb_app, Hk1, Hk2. }
  do 2 f_equal. apply map_eq. intros k. unfold add_counts.
  by rewrite Hm, lookup_union_with, Hm1, Hm2, count_of_app.
Qed.


(** X10: only "completed" and "id" are read: two arrays whose records
    agree, one by one, on these two fields give the same outcome, whatever
    else the records hold. *)
Theorem other_fields_ignored (net1 net2 : network) (p : process) (event : E)
    (context : C) (rows1 rows2 : list (list (string * value))) :
  Forall2 (fun d1 d2 => dict_get d1 "completed" = dict_get d2 "completed"
                        ∧ dict_get d1 "id" = dict_get d2 "id") rows1 rows2 →
  answers net1 p (VList (map VDict rows1)) →
  answers net2 p (VList (map VDict rows2)) →
  returned (handler DataFrame_other net1 p event context)
  = returned (handler DataFrame_other net2 p event context).
Proof.
  intros (Hcs & Hids & Hc & Hi)%agree_on_both_fields Hnet1 Hnet2.
  rewrite (returned_answers _ _ _ _ _ _ Hnet1), (returned_answers _ _ _ _ _ _ Hnet2).
  by rewrite !summarise_dicts, Hcs, Hids, Hc, Hi.
Qed.

(** X11: the sum of the counts returned for an array of records is never
    negative and never more than the number of records: no record is
    counted twice. *)
Theorem sum_at_most_records (net : network) (p : process) (event : E)
    (context : C) (rows : list (list (string * value))) (m : gmap key Z) :
  answers net p (VList (map VDict rows)) →
  returned (handler DataFrame_other net p event context)
  = Ok {[ "CompletedCount" := m ]} →
  0 <= total m <= Z.of_nat (length rows).
Proof.
  intros Hnet. rewrite (returned_answers _ _ _ _ _ _ Hnet). intros Hret.
  destruct (summarise_dicts_Ok _ _ Hret) as (Hc & Hi & Hkeys & _).
  rewrite summarise_dicts, Hc, Hi in Hret.
  destruct (count_total_dicts rows Hkeys) as (m' & Hcount & Htot).
  rewrite Hcount in Hret. cbn [mbind result_bind] in Hret.
  assert (m' = m) as <- by (apply singleton_counts_inj; congruence).
  rewrite Htot. pose proof (filter_length_bound counted rows). lia.
Qed.

End Records.

(** ** The further statements at concrete invocations *)

Lemma no_completed_field_raises_witness :
  returned (handler strict_DataFrame (serve 200 (Ok (VList (map VDict no_completed_rows))))
              (import_index ∅) tt tt)
  = Raise (KeyError "completed").
Proof.
  apply (no_completed_field_raises strict_DataFrame _ _ tt tt no_completed_rows).
  - eexists; split; reflexivity.
  - reflexivity.
Defined.

Lemma no_id_field_raises_witness :
  returned (handler strict_DataFrame (serve 200 (Ok (VList (map VDict no_id_rows))))
              (import_index ∅) tt tt)
  = Raise (KeyError "Column not found: id").
Proof.
  apply (no_id_field_raises strict_DataFrame _ _ tt tt no_id_rows).
  - eexists; split; reflexivity.
  - reflexivity.
  - reflexivity.
Defined.

Lemma unhashable_completed_raises_witness :
  ∃ msg, returned (handler strict_DataFrame
                     (serve 200 (Ok (VList (map VDict unhashable_rows))))
                     (import_index ∅) tt tt)
         = Raise (TypeError msg).
Proof.
  apply (unhashable_completed_raises strict_DataFrame _ _ tt tt unhashable_rows).
  - eexists; split; reflexivity.
  - reflexivity.
  - reflexivity.
  - reflexivity.
Defined.

Lemma handler_returns_iff_witness :
  (∃ d, returned (handler strict_DataFrame (serve 200 (Ok three_todos))
                    (import_index ∅) tt tt) = Ok d)
  ↔ existsb (has_key "completed") three_rows = true
    ∧ existsb (has_key "id") three_rows = true
    ∧ forallb keyable three_rows = true.
Proof.
  apply (handler_returns_iff strict_DataFrame _ _ tt tt three_rows).
  eexists; split; reflexivity.
Defined.

Lemma counts_by_key_witness :
  ∃ m, ({[ "CompletedCount" := {[ KTrue := 1; KFalse := 1 ]} ]} : gmap string (gmap key Z))
       = {[ "CompletedCount" := m ]}
     ∧ ∀ k, m !! k = if existsb (label_is k) stray_rows
                     then Some (tally_of k stray_rows) else None.
Proof.
  apply (counts_by_key strict_DataFrame
           (serve 200 (Ok (VList (map VDict stray_rows)))) (import_index ∅) tt tt).
  - eexists; split; reflexivity.
  - reflexivity.
  - vm_compute. reflexivity.
Defined.

Lemma group_without_ids_counts_zero_witness :
  ({[ KTrue := 0; KFalse := 1 ]} : gmap key Z) !! KTrue = Some 0.
Proof.
  apply (group_without_ids_counts_zero strict_DataFrame
           (serve 200 (Ok (VList (map VDict null_id_rows)))) (import_index ∅) tt tt
           null_id_rows).
  - eexists; split; reflexivity.
  - reflexivity.
  - vm_compute. reflexivity.
  - reflexivity.
  - reflexivity.
Defined.

Lemma all_completed_null_gives_empty_witness :
  returned (handler strict_DataFrame (serve 200 (Ok (VList (map VDict all_null_rows))))
              (import_index ∅) tt tt)
  = Ok {[ "CompletedCount" := ∅ ]}.
Proof.
  apply (all_completed_null_gives_empty strict_DataFrame _ _ tt tt all_null_rows).
  - eexists; split; reflexivity.
  - reflexivity.
  - reflexivity.
  - reflexivity.
Defined.

Lemma counts_of_concatenation_witness :
  returned (handler strict_DataFrame
              (serve 200 (Ok (VList (map VDict (three_rows ++ lacking_rows)))))
              (import_index ∅) tt tt)
  = Ok {[ "CompletedCount" := add_counts {[ KTrue := 2; KFalse := 1 ]} {[ KTrue := 1 ]} ]}.
Proof.
  apply (counts_of_concatenation strict_DataFrame
           (serve 200 (Ok (VList (map VDict three_rows))))
           (serve 200 (Ok (VList (map VDict lacking_rows))))
           _ _ tt tt three_rows lacking_rows).
  - eexists; split; reflexivity.
  - eexists; split; reflexivity.
  - eexists; split; reflexivity.
  - reflexivity.
  - vm_compute. reflexivity.
  - vm_compute. reflexivity.
Defined.


Lemma other_fields_ignored_witness :
  returned (handler strict_DataFrame (serve 200 (Ok (VList (map VDict [todo 1 true]))))
              (import_index ∅) tt tt)
  = returned (handler strict_DataFrame (serve 200 (Ok (VList (map VDict titled_rows))))
                (import_index ∅) tt tt).
Proof.
  apply (other_fields_ignored strict_DataFrame _ _ _ tt tt [todo 1 true] titled_rows).
  - repeat constructor.
  - eexists; split; reflexivity.
  - eexists; split; reflexivity.
Defined.

Lemma sum_at_most_records_witness :
  0 <= total {[ KTrue := 1; KFalse := 1 ]} <= Z.of_nat (length stray_rows).
Proof.
  apply (sum_at_most_records strict_DataFrame
           (serve 200 (Ok (VList (map VDict stray_rows)))) (import_index ∅) tt tt).
  - eexists; split; reflexivity.
  - vm_compute. reflexivity.
Defined.
